(** * The error tail of the request pipeline of [src/config/express.js]

    The file registers third-party middleware (lines 18-84) and then three
    handlers of its own (lines 89-121): the conversion of any failure into an
    [APIError], the 404 handler and the final JSON error handler.  This
    development embeds those three handlers, the way Express chains them, and
    the JavaScript values they read and write, the registration of the
    whole stack as a function of the mode, and what Express and Node put on
    the wire for the status and body the final handler hands them. *)

From Stdlib Require Import ZArith List String DecimalString Lia.
Import ListNotations.
Open Scope string_scope.

(** ** JavaScript values *)

(** The values an error property or a response field can hold.  Numbers are
    restricted to integers (HTTP status codes); an object is the list of its
    own properties in insertion order. *)
#[warnings="-register-all"]
Inductive JsVal : Type :=
| VUndefined
| VNull
| VBool (b : bool)
| VNum (n : Z)
| VStr (s : string)
| VObj (props : list (string * JsVal)).

(** [ToBoolean]: what the conditional operator [c ? a : b] tests. *)
Definition truthy (v : JsVal) : bool :=
  match v with
  | VUndefined | VNull => false
  | VBool b => b
  | VNum n => negb (n =? 0)%Z
  | VStr s => negb (s =? "")
  | VObj _ => true
  end.

(** [ToString], which turns the operand of [o[k]] into a property key. *)
Definition ToString (v : JsVal) : string :=
  match v with
  | VUndefined => "undefined"
  | VNull => "null"
  | VBool true => "true"
  | VBool false => "false"
  | VNum n => NilEmpty.string_of_int (Z.to_int n)
  | VStr s => s
  | VObj _ => "[object Object]"
  end.

(** Property read [o[k]]: [undefined] when [o] has no property [k]. *)
Fixpoint getProp (props : list (string * JsVal)) (k : string) : JsVal :=
  match props with
  | [] => VUndefined
  | (k', v) :: rest => if k' =? k then v else getProp rest k
  end.

(** ** Arrays of strings *)

(** [Array.prototype.join] as ECMAScript runs it: the result [R] starts empty
    and, for each index [k], receives the separator when [k > 0] and then the
    element. *)
Fixpoint join_from (sep : string) (R : string) (k : nat) (a : list string) : string :=
  match a with
  | [] => R
  | x :: rest =>
      let R := if (0 <? k)%nat then R ++ sep else R in
      join_from sep (R ++ x) (S k) rest
  end.

Definition Array_join (a : list string) (sep : string) : string :=
  join_from sep "" 0 a.

(** ** JSON *)

#[warnings="-register-all"]
Inductive Json : Type :=
| JNull
| JBool (b : bool)
| JNum (n : Z)
| JStr (s : string)
| JObject (fields : list (string * Json)).

(** [JSON.stringify] on the values above, as a tree: a property whose value is
    [undefined] is left out of the enclosing object, and [undefined] itself
    has no JSON text. *)
Fixpoint toJSON (v : JsVal) : option Json :=
  match v with
  | VUndefined => None
  | VNull => Some JNull
  | VBool b => Some (JBool b)
  | VNum n => Some (JNum n)
  | VStr s => Some (JStr s)
  | VObj props =>
      Some (JObject
        ((fix fields (ps : list (string * JsVal)) : list (string * Json) :=
            match ps with
            | [] => []
            | (k, x) :: rest =>
                match toJSON x with
                | Some j => (k, j) :: fields rest
                | None => fields rest
                end
            end) props))
  end.

Definition JSON_stringify (props : list (string * JsVal)) : Json :=
  match toJSON (VObj props) with
  | Some j => j
  | None => JNull
  end.

(** Field of a JSON object, when it has it. *)
Fixpoint field (fs : list (string * Json)) (k : string) : option Json :=
  match fs with
  | [] => None
  | (k', j) :: rest => if k' =? k then Some j else field rest k
  end.

Definition fieldOf (j : Json) (k : string) : option Json :=
  match j with
  | JObject fs => field fs k
  | _ => None
  end.

Definition fieldNames (j : Json) : list string :=
  match j with
  | JObject fs => map fst fs
  | _ => []
  end.

Definition isString (j : option Json) : bool :=
  match j with
  | Some (JStr _) => true
  | _ => false
  end.

(** ** The [http-status] table

    The numeric entries of the third-party [http-status] object (status code
    to reason phrase) and the two named codes the file reads from it. *)
Definition statusTexts : list (Z * string) :=
  [ (100, "Continue"); (101, "Switching Protocols");
    (200, "OK"); (201, "Created"); (202, "Accepted");
    (203, "Non-Authoritative Information"); (204, "No Content");
    (205, "Reset Content"); (206, "Partial Content"); (207, "Multi Status");
    (208, "Already Reported"); (226, "IM Used");
    (300, "Multiple Choices"); (301, "Moved Permanently"); (302, "Found");
    (303, "See Other"); (304, "Not Modified"); (305, "Use Proxy");
    (306, "Switch Proxy"); (307, "Temporary Redirect");
    (308, "Permanent Redirect");
    (400, "Bad Request"); (401, "Unauthorized"); (402, "Payment Required");
    (403, "Forbidden"); (404, "Not Found"); (405, "Method Not Allowed");
    (406, "Not Acceptable"); (407, "Proxy Authentication Required");
    (408, "Request Time-out"); (409, "Conflict"); (410, "Gone");
    (411, "Length Required"); (412, "Precondition Failed");
    (413, "Request Entity Too Large"); (414, "Request-URI Too Large");
    (415, "Unsupported Media Type");
    (416, "Requested Range not Satisfiable"); (417, "Expectation Failed");
    (418, "I'm a teapot"); (421, "Misdirected Request");
    (422, "Unprocessable Entity"); (423, "Locked");
    (424, "Failed Dependency"); (426, "Upgrade Required");
    (428, "Precondition Required"); (429, "Too Many Requests");
    (431, "Request Header Fields Too Large");
    (451, "Unavailable For Legal Reasons");
    (500, "Internal Server Error"); (501, "Not Implemented");
    (502, "Bad Gateway"); (503, "Service Unavailable");
    (504, "Gateway Time-out"); (505, "HTTP Version not Supported");
    (506, "Variant Also Negotiates"); (507, "Insufficient Storage");
    (508, "Loop Detected"); (510, "Not Extended");
    (511, "Network Authentication Required") ]%Z.

Definition httpStatus : list (string * JsVal) :=
  map (fun ct => (ToString (VNum (fst ct)), VStr (snd ct))) statusTexts
  ++ [ ("NOT_FOUND", VNum 404); ("INTERNAL_SERVER_ERROR", VNum 500) ].

(** ** Errors *)

(** What the two [instanceof] tests of the file can tell apart. *)
Inductive Class : Type := ValidationError | APIError | OtherError.

Definition Class_eqb (a b : Class) : bool :=
  match a, b with
  | ValidationError, ValidationError => true
  | APIError, APIError => true
  | OtherError, OtherError => true
  | _, _ => false
  end.

(** One entry of [err.errors] of an express-validation failure. *)
Record FieldError : Type := { messages : list string }.

(** A failure value with the properties the handlers read. *)
Record Err : Type := mkErr {
  cls : Class;
  message : JsVal;
  status : JsVal;
  isPublic : JsVal;
  stack : JsVal;
  errors : list FieldError
}.

Definition instanceof (e : Err) (c : Class) : bool := Class_eqb (cls e) c.

(** A parameter that is [undefined] takes its default value. *)
Definition orDefault (v d : JsVal) : JsVal :=
  match v with
  | VUndefined => d
  | _ => v
  end.

(** Modelled from the spec: the constructor of [src/libs/APIError], which is
    not among the sources.  A uniform error carries [message], [status],
    [isPublic] and an optional [stack]; the status defaults to the Internal
    Server Error status and [isPublic] to false when absent.  [trace] is the
    stack the runtime captures for the new object. *)
Definition new_APIError (trace : JsVal) (message status isPublic : JsVal) : Err :=
  {| cls := APIError;
     message := message;
     status := orDefault status (getProp httpStatus "INTERNAL_SERVER_ERROR");
     isPublic := orDefault isPublic (VBool false);
     stack := trace;
     errors := [] |}.

(** ** Requests, responses and handlers *)

Record Request : Type := { method : string; url : string }.

(** What a handler can change: the response ([res.status], [res.json]) and
    the console.  [statusCode] is the value handed to [res.status] and [sent]
    the body handed to [res.json]; what Express and Node then put on the wire
    (a status they reject, a response already sent, a status without body) is
    the matter of [Module Wire] below. *)
Record World : Type := mkWorld {
  statusCode : JsVal;
  sent : option Json;
  console : list Err
}.

Definition M (A : Type) : Type := World -> A * World.

Definition ret {A : Type} (a : A) : M A := fun w => (a, w).

Definition bind {A B : Type} (m : M A) (f : A -> M B) : M B :=
  fun w => let (a, w') := m w in f a w'.

Notation "m1 ;; m2" := (bind m1 (fun _ => m2))
  (at level 61, right associativity).

Definition res_status (code : JsVal) : M unit :=
  fun w => (tt, {| statusCode := code; sent := sent w; console := console w |}).

Definition res_json (props : list (string * JsVal)) : M unit :=
  fun w => (tt, {| statusCode := statusCode w;
                   sent := Some (JSON_stringify props);
                   console := console w |}).

Definition console_error (e : Err) : M unit :=
  fun w => (tt, {| statusCode := statusCode w;
                   sent := sent w;
                   console := (console w ++ [e])%list |}).

(** The continuation [next]: [next()] is [next None], [next(err)] is
    [next (Some err)]. *)
Definition Next : Type := option Err -> M unit.

Record Env : Type := { nodeEnv : string }.

Inductive Layer : Type :=
| Use (h : Request -> Next -> M unit)
| UseError (h : Err -> Request -> Next -> M unit).

(** Express's router: with an error pending only error handlers run, without
    one only plain handlers; [next] resumes at the layer that follows.  Past
    the last layer of this file nothing more is modelled, and no handler
    throws here: exceptions are in [Wire.dispatch]. *)
Fixpoint dispatch (layers : list Layer) (req : Request) (pending : option Err) : M unit :=
  match layers with
  | [] => ret tt
  | Use h :: rest =>
      match pending with
      | None => h req (dispatch rest req)
      | Some _ => dispatch rest req pending
      end
  | UseError h :: rest =>
      match pending with
      | Some err => h err req (dispatch rest req)
      | None => dispatch rest req None
      end
  end.

Section Handlers.

Variable env : Env.
Variable trace : JsVal.

(** Lines 89-100: if error is not an instance of APIError, convert it. *)
Definition convertError (err : Err) (req : Request) (next : Next) : M unit :=
  if instanceof err ValidationError then
    let unifiedErrorMessage :=
      Array_join (map (fun error => Array_join (messages error) ". ") (errors err)) " and " in
    let error := new_APIError trace (VStr unifiedErrorMessage) (status err) (VBool true) in
    next (Some error)
  else if negb (instanceof err APIError) then
    let apiError := new_APIError trace (message err) (status err) (isPublic err) in
    next (Some apiError)
  else
    next (Some err).

(** Lines 105-108: catch 404 and forward to the error handler. *)
Definition notFound (req : Request) (next : Next) : M unit :=
  let err := new_APIError trace (VStr "API not found!") (getProp httpStatus "NOT_FOUND") VUndefined in
  next (Some err).

(** Lines 113-121: the error handler; the stack trace is sent only when
    [env.nodeEnv] is ['dev']. *)
Definition errorHandler (err : Err) (req : Request) (next : Next) : M unit :=
  res_status (status err) ;;
  res_json
    [ ("message", if truthy (isPublic err) then message err
                  else getProp httpStatus (ToString (status err)));
      ("stack", if nodeEnv env =? "dev" then stack err else VObj []) ] ;;
  if nodeEnv env =? "dev" then console_error err else ret tt.

(** The three layers in the order the file registers them. *)
Definition errorLayers : list Layer :=
  [ UseError convertError; Use notFound; UseError errorHandler ].

(** The tail of the pipeline for one request: [pending] is the failure a
    stage or a route handed to [next], or [None] when no route matched. *)
Definition pipeline (req : Request) (pending : option Err) : M unit :=
  dispatch errorLayers req pending.

End Handlers.

(** ** The application and its middleware (lines 18-84) *)

(** The logger of [./winston] and its [stream] property. *)
Inductive Winston : Type := logger.

Inductive LogStream : Type := stream (l : Winston).

(** The options object given to [expressWinston.logger]. *)
Record WinstonOptions : Type := {
  winstonInstance : Winston;
  meta : bool;
  msg : string;
  colorStatus : bool;
  colorize : bool
}.

(** What [app.use] is given: the third-party middleware by constructor and
    options, the router of [../index.route], and the handlers of this file. *)
Inductive Middleware : Type :=
| Compression
| UrlEncoded (extended : bool)
| BodyJson
| MethodOverride
| Morgan (format : string) (out : option LogStream)
| Cors
| Crossdomain
| XssFilter
| NoSniff
| Frameguard
| IeNoOpen
| HidePoweredBy
| WinstonLogger (options : WinstonOptions)
| Routes
| Handler (l : Layer).

(** What the file changes while it is loaded: the settings and the layer
    stack of [app], each layer with its mount path, and the two whitelists of
    the express-winston module. *)
Record Setup : Type := mkSetup {
  settings : list (string * JsVal);
  layers : list (string * Middleware);
  requestWhitelist : list string;
  responseWhitelist : list string
}.

(** [express()]: an application with the default settings and no layer. *)
Definition express (defaults : list (string * JsVal)) (reqWL resWL : list string) : Setup :=
  {| settings := defaults; layers := [];
     requestWhitelist := reqWL; responseWhitelist := resWL |}.

Definition app_set (k : string) (v : JsVal) (s : Setup) : Setup :=
  {| settings := (k, v) :: settings s; layers := layers s;
     requestWhitelist := requestWhitelist s;
     responseWhitelist := responseWhitelist s |}.

Definition app_use_at (path : string) (m : Middleware) (s : Setup) : Setup :=
  {| settings := settings s; layers := (layers s ++ [(path, m)])%list;
     requestWhitelist := requestWhitelist s;
     responseWhitelist := responseWhitelist s |}.

Definition app_use (m : Middleware) (s : Setup) : Setup := app_use_at "/" m s.

Definition requestWhitelist_push (x : string) (s : Setup) : Setup :=
  {| settings := settings s; layers := layers s;
     requestWhitelist := (requestWhitelist s ++ [x])%list;
     responseWhitelist := responseWhitelist s |}.

Definition responseWhitelist_push (x : string) (s : Setup) : Setup :=
  {| settings := settings s; layers := layers s;
     requestWhitelist := requestWhitelist s;
     responseWhitelist := (responseWhitelist s ++ [x])%list |}.

Definition winstonOptions : WinstonOptions :=
  {| winstonInstance := logger;
     meta := true;
     msg := "HTTP {{req.method}} {{req.url}} {{res.statusCode}} {{res.responseTime}}ms";
     colorStatus := true;
     colorize := true |}.

Section Application.

Variable env : Env.
Variable port : JsVal.
Variable trace : JsVal.

(** Lines 23-121, statement by statement, on the application [express()]
    returned; [port] is [env.port]. *)
Definition configure (s : Setup) : Setup :=
  let s := app_set "port" port s in
  let s := app_use Compression s in
  let s := app_use (UrlEncoded true) s in
  let s := app_use BodyJson s in
  let s := app_use MethodOverride s in
  let s := if nodeEnv env =? "prod" then
             app_use (Morgan "dev" (Some (stream logger))) s
           else if negb (nodeEnv env =? "test") then
             app_use (Morgan "dev" None) s
           else s in
  let s := app_use Cors s in
  let s := app_use Crossdomain s in
  let s := app_use XssFilter s in
  let s := app_use NoSniff s in
  let s := app_use Frameguard s in
  let s := app_use IeNoOpen s in
  let s := app_use HidePoweredBy s in
  let s := if negb (nodeEnv env =? "test") then
             let s := requestWhitelist_push "body" s in
             let s := responseWhitelist_push "body" s in
             app_use (WinstonLogger winstonOptions) s
           else s in
  let s := app_use_at "/api" Routes s in
  let s := app_use (Handler (UseError (convertError trace))) s in
  let s := app_use (Handler (Use (notFound trace))) s in
  let s := app_use (Handler (UseError (errorHandler env))) s in
  s.

(** The module's export: the configured application. *)
Definition app (defaults : list (string * JsVal)) (reqWL resWL : list string) : Setup :=
  configure (express defaults reqWL resWL).

End Application.

(** Logging middleware: the access log and the request/response log. *)
Definition isLogging (m : Middleware) : bool :=
  match m with
  | Morgan _ _ | WinstonLogger _ => true
  | _ => false
  end.

Definition isHandler (m : Middleware) : bool :=
  match m with
  | Handler _ => true
  | _ => false
  end.

(** The handlers of this file among the registered layers, in order. *)
Fixpoint ownLayers (ls : list (string * Middleware)) : list Layer :=
  match ls with
  | [] => []
  | (_, Handler l) :: rest => l :: ownLayers rest
  | _ :: rest => ownLayers rest
  end.

(** [m] occurs in [s] as a contiguous piece. *)
Definition occursIn (m s : string) : Prop :=
  exists pre post : string, s = pre ++ m ++ post.

(** ** The response on the wire

    The same three handlers with what Express 4 and Node do with the status
    and the body they are handed: [res.json] throws when a response was
    already sent or when Node rejects the status, the status is truncated to
    32 bits, some statuses and HEAD requests carry no body, and Express
    hands an exception thrown by a handler to the error handlers after it. *)
Module Wire.

Local Open Scope bool_scope.

Inductive Exn : Type :=
| ERR_HTTP_HEADERS_SENT
| ERR_HTTP_INVALID_STATUS_CODE.

(** How a handler ends.  [NotCovered] marks what this development leaves
    open: a status given as a string, status 205, whose body depends on the
    Express release, and Express's own final handler past the last layer. *)
Inductive Result (A : Type) : Type :=
| Ok (a : A)
| Throw (x : Exn)
| NotCovered.

Arguments Ok {A} a.
Arguments Throw {A} x.
Arguments NotCovered {A}.

(** [validatorsMatch]: the cache validators of the request (If-None-Match,
    If-Modified-Since) match the ones Express computes for the response. *)
Record Request : Type := {
  method : string;
  url : string;
  validatorsMatch : bool
}.

(** [statusCode] is the property [res.statusCode]; [written] is what went to
    the client, the status line and the JSON body if there is one. *)
Record World : Type := mkWorld {
  statusCode : JsVal;
  written : option (Z * option Json);
  console : list Err
}.

Definition M (A : Type) : Type := World -> Result A * World.

Definition ret {A : Type} (a : A) : M A := fun w => (Ok a, w).

Definition bind {A B : Type} (m : M A) (f : A -> M B) : M B :=
  fun w =>
    match m w with
    | (Ok a, w') => f a w'
    | (Throw x, w') => (Throw x, w')
    | (NotCovered, w') => (NotCovered, w')
    end.

Notation "m1 >> m2" := (bind m1 (fun _ => m2))
  (at level 61, right associativity).

(** [try { m } catch (x) { handler(x) }]. *)
Definition try_catch (m : M unit) (handler : Exn -> M unit) : M unit :=
  fun w =>
    match m w with
    | (Throw x, w') => handler x w'
    | r => r
    end.

(** Node's [statusCode |= 0]. *)
Definition ToInt32 (n : Z) : Z :=
  ((n + 2147483648) mod 4294967296 - 2147483648)%Z.

(** [ToNumber] of a status, with [NaN] already taken to the 0 that [|= 0]
    makes of it; the conversion of a string is not covered. *)
Definition statusNumber (v : JsVal) : option Z :=
  match v with
  | VNum n => Some n
  | VBool true => Some 1%Z
  | VBool false | VNull | VUndefined | VObj _ => Some 0%Z
  | VStr _ => None
  end.

(** [req.fresh]: a GET or HEAD request, a response status that is 2xx or
    304, and matching validators. *)
Definition fresh (req : Request) (code : JsVal) : bool :=
  ((method req =? "GET") || (method req =? "HEAD"))
  && match code with
     | VNum s => ((200 <=? s)%Z && (s <? 300)%Z) || (s =? 304)%Z
     | _ => false
     end
  && validatorsMatch req.

(** Statuses that go out without a body. *)
Definition bodyless (n : Z) : bool :=
  ((100 <=? n)%Z && (n <=? 199)%Z) || (n =? 204)%Z || (n =? 304)%Z.

Definition res_status (code : JsVal) : M unit :=
  fun w => (Ok tt, {| statusCode := code; written := written w; console := console w |}).

(** [res.json(obj)] through [res.send] and Node's [writeHead]. *)
Definition res_json (req : Request) (props : list (string * JsVal)) : M unit :=
  fun w =>
    match written w with
    | Some _ => (Throw ERR_HTTP_HEADERS_SENT, w)
    | None =>
        let code := if fresh req (statusCode w) then VNum 304 else statusCode w in
        let w1 := {| statusCode := code; written := None; console := console w |} in
        match statusNumber code with
        | None => (NotCovered, w1)
        | Some raw =>
            let n := ToInt32 raw in
            if (n <? 100)%Z || (999 <? n)%Z then
              (Throw ERR_HTTP_INVALID_STATUS_CODE, w1)
            else if (n =? 205)%Z then (NotCovered, w1)
            else
              (Ok tt,
               {| statusCode := code;
                  written :=
                    Some (n, if bodyless n || (method req =? "HEAD") then None
                             else Some (JSON_stringify props));
                  console := console w |})
        end
    end.

Definition console_error (e : Err) : M unit :=
  fun w => (Ok tt, {| statusCode := statusCode w;
                      written := written w;
                      console := (console w ++ [e])%list |}).

Definition Next : Type := option Err -> M unit.

Inductive Layer : Type :=
| Use (h : Request -> Next -> M unit)
| UseError (h : Err -> Request -> Next -> M unit).

Section Handlers.

Variable env : Env.
Variable trace : JsVal.

(** The error object the runtime makes of an exception. *)
Variable thrown : Exn -> Err.

(** Express's router, as [dispatch] above, with the [try]/[catch] it puts
    around every handler: what a handler throws is handed to the layers
    after it as the pending error. *)
Fixpoint dispatch (layers : list Layer) (req : Request) (pending : option Err) : M unit :=
  match layers with
  | [] => fun w => (NotCovered, w)
  | Use h :: rest =>
      match pending with
      | None =>
          try_catch (h req (dispatch rest req))
                    (fun x => dispatch rest req (Some (thrown x)))
      | Some _ => dispatch rest req pending
      end
  | UseError h :: rest =>
      match pending with
      | Some err =>
          try_catch (h err req (dispatch rest req))
                    (fun x => dispatch rest req (Some (thrown x)))
      | None => dispatch rest req None
      end
  end.

(** Lines 89-100. *)
Definition convertError (err : Err) (req : Request) (next : Next) : M unit :=
  if instanceof err ValidationError then
    let unifiedErrorMessage :=
      Array_join (map (fun error => Array_join (messages error) ". ") (errors err)) " and " in
    let error := new_APIError trace (VStr unifiedErrorMessage) (status err) (VBool true) in
    next (Some error)
  else if negb (instanceof err APIError) then
    let apiError := new_APIError trace (message err) (status err) (isPublic err) in
    next (Some apiError)
  else
    next (Some err).

(** Lines 105-108. *)
Definition notFound (req : Request) (next : Next) : M unit :=
  let err := new_APIError trace (VStr "API not found!") (getProp httpStatus "NOT_FOUND") VUndefined in
  next (Some err).

(** Lines 113-121. *)
Definition errorHandler (err : Err) (req : Request) (next : Next) : M unit :=
  res_status (status err) >>
  res_json req
    [ ("message", if truthy (isPublic err) then message err
                  else getProp httpStatus (ToString (status err)));
      ("stack", if nodeEnv env =? "dev" then stack err else VObj []) ] >>
  if nodeEnv env =? "dev" then console_error err else ret tt.

Definition errorLayers : list Layer :=
  [ UseError convertError; Use notFound; UseError errorHandler ].

Definition pipeline (req : Request) (pending : option Err) : M unit :=
  dispatch errorLayers req pending.

End Handlers.

End Wire.

(** ** Observations used by the statements *)

(** A stage forwards [e] when all it does is hand [e] to its continuation. *)
Definition forwards (h : Next -> M unit) (e : Err) : Prop :=
  forall next : Next, h next = next (Some e).

(** A continuation that only notes what it was given. *)
Definition noteNext : Next :=
  fun pending =>
    match pending with
    | Some e => console_error e
    | None => ret tt
    end.

(** Top-level field [k] of the JSON body that was sent, if any. *)
Definition bodyField (w : World) (k : string) : option Json :=
  match sent w with
  | Some j => fieldOf j k
  | None => None
  end.

(** Names of the top-level fields of the JSON body that was sent. *)
Definition bodyFieldNames (w : World) : list string :=
  match sent w with
  | Some j => fieldNames j
  | None => []
  end.

(** The message the final handler shows is the string [m]: the error is
    public and [m] is its message, or it is not and [m] is the text the
    status table has for its status. *)
Definition shownMessage (err : Err) (m : string) : Prop :=
  (truthy (isPublic err) = true /\ message err = VStr m) \/
  (truthy (isPublic err) = false /\
   getProp httpStatus (ToString (status err)) = VStr m).

Definition withMessage (e : Err) (m : JsVal) : Err :=
  {| cls := cls e; message := m; status := status e;
     isPublic := isPublic e; stack := stack e; errors := errors e |}.

(** The combined message in the words of the specification: the messages of
    a group joined by [within], the groups joined by [across]. *)
Definition joinedMessages (within across : string) (groups : list FieldError) : string :=
  concat across (map (fun g => concat within (messages g)) groups).

(** What follows the first element in a joined string. *)
Fixpoint sepTail (sep : string) (a : list string) : string :=
  match a with
  | [] => ""
  | x :: rest => sep ++ x ++ sepTail sep rest
  end.

(** The world a handler leaves behind. *)
Definition run (m : M unit) (w : World) : World := snd (m w).

(** Sample inputs. *)
Definition world0 : World :=
  {| statusCode := VNum 200; sent := None; console := [] |}.

Definition aReq : Request := {| method := "GET"; url := "/api/does-not-exist" |}.
Definition prodEnv : Env := {| nodeEnv := "prod" |}.
Definition devEnv : Env := {| nodeEnv := "dev" |}.
Definition aTrace : JsVal := VStr "APIError: at express.js".

Definition twoGroups : Err :=
  {| cls := ValidationError; message := VStr "validation error";
     status := VNum 400; isPublic := VUndefined; stack := VUndefined;
     errors := [ {| messages := ["a"; "b"] |}; {| messages := ["c"] |} ] |}.

Definition noGroups : Err :=
  {| cls := ValidationError; message := VStr "validation error";
     status := VNum 400; isPublic := VUndefined; stack := VUndefined;
     errors := [] |}.

Definition plainError : Err :=
  {| cls := OtherError; message := VStr "connect ECONNREFUSED";
     status := VUndefined; isPublic := VUndefined;
     stack := VStr "Error: connect ECONNREFUSED"; errors := [] |}.

Definition internalError : Err :=
  {| cls := APIError; message := VStr "db password rejected";
     status := VNum 500; isPublic := VBool false;
     stack := VStr "APIError: db password rejected"; errors := [] |}.

Definition oddStatus : Err :=
  {| cls := APIError; message := VStr "quota";
     status := VNum 299; isPublic := VBool false;
     stack := VStr "APIError: quota"; errors := [] |}.

Definition stagingEnv : Env := {| nodeEnv := "staging" |}.
Definition testEnv : Env := {| nodeEnv := "test" |}.

Definition publicError : Err :=
  {| cls := OtherError; message := VStr "email already registered";
     status := VNum 409; isPublic := VBool true;
     stack := VStr "Error: email already registered"; errors := [] |}.

Definition zeroStatus : Err :=
  {| cls := APIError; message := VStr "no status";
     status := VNum 0; isPublic := VBool false;
     stack := VStr "APIError: no status"; errors := [] |}.

Definition wireReq : Wire.Request :=
  {| Wire.method := "GET"; Wire.url := "/api/users"; Wire.validatorsMatch := false |}.

Definition wire0 : Wire.World :=
  {| Wire.statusCode := VNum 200; Wire.written := None; Wire.console := [] |}.

(** A response an earlier stage has already sent. *)
Definition wireSent : Wire.World :=
  {| Wire.statusCode := VNum 201;
     Wire.written := Some (201%Z, Some (JObject [("id", JNum 7)]));
     Wire.console := [] |}.

(** An error object for an exception, and a later layer that notes the error
    it is given. *)
Definition thrownSample (x : Wire.Exn) : Err :=
  {| cls := OtherError; message := VStr "thrown by res.json";
     status := VUndefined; isPublic := VUndefined;
     stack := VUndefined; errors := [] |}.

Definition noteLayer : Wire.Layer :=
  Wire.UseError (fun e _ _ => Wire.console_error e).

(** * Proofs *)

(** ** Strings and [join] *)

Lemma append_nil_r (s : string) : s ++ "" = s.
Proof.
  induction s as [|c s IH]; simpl; [reflexivity | now rewrite IH].
Qed.

Lemma append_assoc (s t u : string) : (s ++ t) ++ u = s ++ t ++ u.
Proof.
  induction s as [|c s IH]; simpl; [reflexivity | now rewrite IH].
Qed.

(** Past the first index the loop appends separator and element in turn. *)
Lemma join_from_S (sep : string) (a : list string) :
  forall (R : string) (k : nat), join_from sep R (S k) a = R ++ sepTail sep a.
Proof.
  induction a as [|x rest IH]; intros R k; simpl.
  - now rewrite append_nil_r.
  - rewrite IH. now rewrite !append_assoc.
Qed.

Lemma concat_cons (sep : string) (rest : list string) :
  forall x : string, concat sep (x :: rest) = x ++ sepTail sep rest.
Proof.
  induction rest as [|y rest IH]; intro x.
  - simpl. now rewrite append_nil_r.
  - change (concat sep (x :: y :: rest)) with (x ++ sep ++ concat sep (y :: rest)).
    now rewrite IH.
Qed.

(** The loop of [join] computes the separated concatenation. *)
Lemma Array_join_concat (a : list string) (sep : string) :
  Array_join a sep = concat sep a.
Proof.
  destruct a as [|x rest]; [reflexivity|].
  unfold Array_join. simpl join_from.
  now rewrite join_from_S, concat_cons.
Qed.

Lemma map_join_concat (sep : string) (groups : list FieldError) :
  map (fun error => Array_join (messages error) sep) groups
  = map (fun g => concat sep (messages g)) groups.
Proof.
  apply map_ext. intro g. apply Array_join_concat.
Qed.

Example Array_join_two : Array_join ["a"; "b"] ". " = "a. b".
Proof. reflexivity. Qed.

Example Array_join_one : Array_join ["c"] ". " = "c".
Proof. reflexivity. Qed.

Example Array_join_none : Array_join [] " and " = "".
Proof. reflexivity. Qed.

(** ** What a stage forwards *)

Lemma forwards_unique (h : Next -> M unit) (e1 e2 : Err) :
  forwards h e1 -> forwards h e2 -> e1 = e2.
Proof.
  intros H1 H2.
  pose proof (H1 noteNext) as E1. rewrite (H2 noteNext) in E1.
  apply (f_equal (fun m : M unit => console (snd (m world0)))) in E1.
  simpl in E1. now inversion E1.
Qed.

Lemma convertError_validation (trace : JsVal) (err : Err) (req : Request) :
  cls err = ValidationError ->
  forwards (convertError trace err req)
    (new_APIError trace
       (VStr (joinedMessages ". " " and " (errors err))) (status err) (VBool true)).
Proof.
  intros Hc next. unfold convertError, instanceof. rewrite Hc. simpl.
  unfold joinedMessages.
  now rewrite Array_join_concat, map_join_concat.
Qed.

Lemma convertError_other (trace : JsVal) (err : Err) (req : Request) :
  cls err = OtherError ->
  forwards (convertError trace err req)
    (new_APIError trace (message err) (status err) (isPublic err)).
Proof.
  intros Hc next. unfold convertError, instanceof. now rewrite Hc.
Qed.

Lemma convertError_APIError (trace : JsVal) (err : Err) (req : Request) :
  cls err = APIError -> forwards (convertError trace err req) err.
Proof.
  intros Hc next. unfold convertError, instanceof. now rewrite Hc.
Qed.

(** The stage always forwards exactly one error, and that error is an
    [APIError]. *)
Lemma convertError_total (trace : JsVal) (err : Err) (req : Request) :
  exists e : Err, forwards (convertError trace err req) e /\ cls e = APIError.
Proof.
  destruct (cls err) eqn:Hc.
  - eexists; split; [now apply convertError_validation | reflexivity].
  - exists err; split; [now apply convertError_APIError | exact Hc].
  - eexists; split; [now apply convertError_other | reflexivity].
Qed.

Lemma httpStatus_500 : getProp httpStatus (ToString (VNum 500)) = VStr "Internal Server Error".
Proof. reflexivity. Qed.

Lemma httpStatus_404 : getProp httpStatus (ToString (VNum 404)) = VStr "Not Found".
Proof. reflexivity. Qed.

(** ** The final handler *)

Lemma errorHandler_status (env : Env) (err : Err) (req : Request) (next : Next) (w : World) :
  statusCode (run (errorHandler env err req next) w) = status err.
Proof.
  unfold run, errorHandler, bind. simpl.
  destruct (nodeEnv env =? "dev"); reflexivity.
Qed.

Lemma errorHandler_sent (env : Env) (err : Err) (req : Request) (next : Next) (w : World) :
  sent (run (errorHandler env err req next) w)
  = Some (JSON_stringify
      [ ("message", if truthy (isPublic err) then message err
                    else getProp httpStatus (ToString (status err)));
        ("stack", if nodeEnv env =? "dev" then stack err else VObj []) ]).
Proof.
  unfold run, errorHandler, bind. simpl.
  destruct (nodeEnv env =? "dev"); reflexivity.
Qed.

(** With an error pending the pipeline is conversion followed by the final
    handler; without one it is the 404 handler followed by the final
    handler. *)
Lemma pipeline_error (env : Env) (trace : JsVal) (req : Request) (err e : Err) :
  forwards (convertError trace err req) e ->
  pipeline env trace req (Some err) = errorHandler env e req (dispatch [] req).
Proof.
  intro H. unfold pipeline, errorLayers. simpl dispatch. now rewrite H.
Qed.

Lemma pipeline_unmatched (env : Env) (trace : JsVal) (req : Request) :
  pipeline env trace req None
  = errorHandler env
      (new_APIError trace (VStr "API not found!") (VNum 404) VUndefined)
      req (dispatch [] req).
Proof. reflexivity. Qed.

Lemma stringify_message_stack (m s : JsVal) :
  JSON_stringify [("message", m); ("stack", s)]
  = JObject
      ((match toJSON m with Some j => [("message", j)] | None => [] end)
       ++ (match toJSON s with Some j => [("stack", j)] | None => [] end))%list.
Proof.
  unfold JSON_stringify. simpl.
  destruct (toJSON m), (toJSON s); reflexivity.
Qed.

Lemma bodyField_message (env : Env) (err : Err) (req : Request) (next : Next) (w : World) :
  bodyField (run (errorHandler env err req next) w) "message"
  = toJSON (if truthy (isPublic err) then message err
            else getProp httpStatus (ToString (status err))).
Proof.
  unfold bodyField. rewrite errorHandler_sent, stringify_message_stack.
  destruct (toJSON (if truthy (isPublic err) then _ else _)); simpl.
  - reflexivity.
  - destruct (toJSON (if nodeEnv env =? "dev" then _ else _)); reflexivity.
Qed.

Lemma bodyField_stack (env : Env) (err : Err) (req : Request) (next : Next) (w : World) :
  bodyField (run (errorHandler env err req next) w) "stack"
  = toJSON (if nodeEnv env =? "dev" then stack err else VObj []).
Proof.
  unfold bodyField. rewrite errorHandler_sent, stringify_message_stack.
  destruct (toJSON (if truthy (isPublic err) then _ else _));
    destruct (toJSON (if nodeEnv env =? "dev" then _ else _)); reflexivity.
Qed.

(** ** The claims *)

(** C1, as the code has it.  For every validation failure that has a status
    and a non-empty list of field-error groups, the conversion stage forwards
    an [APIError] whose message is the messages of each group joined by a
    period and a space, the groups joined by " and ", whose status is the
    failure's status and whose [isPublic] flag is true. *)
Theorem C1_validation_failure_message (trace : JsVal) (err : Err) (req : Request) :
  cls err = ValidationError ->
  errors err <> [] ->
  status err <> VUndefined ->
  exists e : Err,
    forwards (convertError trace err req) e /\
    cls e = APIError /\
    message e = VStr (joinedMessages ". " " and " (errors err)) /\
    status e = status err /\
    isPublic e = VBool true.
Proof.
  intros Hc _ Hs.
  eexists. split; [now apply convertError_validation|].
  repeat split. simpl. unfold orDefault.
  destruct (status err) eqn:E; congruence.
Qed.

Lemma C1_validation_failure_message_witness :
  exists e : Err,
    forwards (convertError aTrace twoGroups aReq) e /\
    cls e = APIError /\
    message e = VStr (joinedMessages ". " " and " (errors twoGroups)) /\
    status e = status twoGroups /\
    isPublic e = VBool true.
Proof.
  apply (C1_validation_failure_message aTrace twoGroups aReq);
    [reflexivity | discriminate | discriminate].
Defined.

(** C1 as stated fails: for the groups ["a"; "b"] and ["c"] the claim's
    message is "a.b and c", the stage forwards "a. b and c". *)
Lemma C1_period_only_counterexample :
  cls twoGroups = ValidationError /\
  errors twoGroups <> [] /\
  joinedMessages "." " and " (errors twoGroups) = "a.b and c" /\
  ~ (exists e : Err,
       forwards (convertError aTrace twoGroups aReq) e /\
       message e = VStr (joinedMessages "." " and " (errors twoGroups)) /\
       status e = status twoGroups /\
       isPublic e = VBool true).
Proof.
  split; [reflexivity|]. split; [discriminate|]. split; [reflexivity|].
  intros [e [Hf [Hm _]]].
  pose proof (convertError_validation aTrace twoGroups aReq eq_refl) as Hg.
  rewrite (forwards_unique _ _ _ Hf Hg) in Hm.
  vm_compute in Hm. discriminate Hm.
Qed.

(** C2, as the code has it.  For a request no route matched the status code
    of the response is 404 and the message field of its body is "Not Found",
    the standard text of 404; "API not found!" is the message of the
    non-public error the 404 handler forwards. *)
Theorem C2_unmatched_route_response (env : Env) (trace : JsVal) (req : Request) (w : World) :
  statusCode (run (pipeline env trace req None) w) = VNum 404 /\
  bodyField (run (pipeline env trace req None) w) "message" = Some (JStr "Not Found") /\
  exists e : Err,
    forwards (notFound trace req) e /\
    message e = VStr "API not found!" /\
    status e = VNum 404 /\
    isPublic e = VBool false.
Proof.
  rewrite pipeline_unmatched. split; [apply errorHandler_status|].
  split; [now rewrite bodyField_message|].
  eexists. split; [intro next; reflexivity|]. repeat split.
Qed.

(** C2 as stated fails: the body of the 404 response does not carry the
    message "API not found!". *)
Lemma C2_message_counterexample :
  statusCode (run (pipeline prodEnv aTrace aReq None) world0) = VNum 404 /\
  bodyField (run (pipeline prodEnv aTrace aReq None) world0) "message"
    <> Some (JStr "API not found!").
Proof.
  split; [reflexivity|]. vm_compute. discriminate.
Qed.

(** C3.  The conversion stage forwards an [APIError] unchanged, and
    conversion is idempotent: what the stage forwards for any failure, it
    forwards unchanged when given it again. *)
Theorem C3_conversion_idempotent (trace trace' : JsVal) (err : Err) (req req' : Request) :
  (cls err = APIError -> forwards (convertError trace err req) err) /\
  exists e : Err,
    forwards (convertError trace err req) e /\
    forwards (convertError trace' e req') e.
Proof.
  split; [apply convertError_APIError|].
  destruct (convertError_total trace err req) as [e [Hf Hc]].
  exists e. split; [exact Hf | now apply convertError_APIError].
Qed.

Lemma C3_conversion_idempotent_witness :
  forwards (convertError aTrace internalError aReq) internalError.
Proof.
  apply (proj1 (C3_conversion_idempotent aTrace aTrace internalError aReq aReq)).
  reflexivity.
Defined.

(** C4.  A failure that is neither a validation failure nor an [APIError] is
    forwarded as an [APIError] with the same message, with its status, or 500
    when it has none, and with its [isPublic] flag, or false when it has
    none; a failure with neither status nor flag is answered with status 500
    and the message "Internal Server Error". *)
Theorem C4_other_failure_wrapped (trace : JsVal) (err : Err) (req : Request) :
  cls err = OtherError ->
  exists e : Err,
    forwards (convertError trace err req) e /\
    cls e = APIError /\
    message e = message err /\
    (status err = VUndefined -> status e = VNum 500) /\
    (status err <> VUndefined -> status e = status err) /\
    (isPublic err = VUndefined -> isPublic e = VBool false) /\
    (isPublic err <> VUndefined -> isPublic e = isPublic err) /\
    (status err = VUndefined -> isPublic err = VUndefined ->
     forall (env : Env) (w : World),
       statusCode (run (pipeline env trace req (Some err)) w) = VNum 500 /\
       bodyField (run (pipeline env trace req (Some err)) w) "message"
         = Some (JStr "Internal Server Error")).
Proof.
  intro Hc.
  pose proof (convertError_other trace err req Hc) as Hf.
  eexists. split; [exact Hf|]. simpl.
  split; [reflexivity|]. split; [reflexivity|].
  split; [intros ->; reflexivity|].
  split; [intro Hs; unfold orDefault; destruct (status err) eqn:E; congruence|].
  split; [intros ->; reflexivity|].
  split; [intro Hp; unfold orDefault; destruct (isPublic err) eqn:E; congruence|].
  intros Hs Hp env w.
  rewrite (pipeline_error env trace req err _ Hf).
  rewrite errorHandler_status, bodyField_message. simpl.
  rewrite Hs, Hp. split; reflexivity.
Qed.

Lemma C4_other_failure_wrapped_witness :
  exists e : Err,
    forwards (convertError aTrace plainError aReq) e /\
    cls e = APIError /\
    message e = message plainError /\
    (status plainError = VUndefined -> status e = VNum 500) /\
    (status plainError <> VUndefined -> status e = status plainError) /\
    (isPublic plainError = VUndefined -> isPublic e = VBool false) /\
    (isPublic plainError <> VUndefined -> isPublic e = isPublic plainError) /\
    (status plainError = VUndefined -> isPublic plainError = VUndefined ->
     forall (env : Env) (w : World),
       statusCode (run (pipeline env aTrace aReq (Some plainError)) w) = VNum 500 /\
       bodyField (run (pipeline env aTrace aReq (Some plainError)) w) "message"
         = Some (JStr "Internal Server Error")).
Proof.
  apply (C4_other_failure_wrapped aTrace plainError aReq). reflexivity.
Defined.

(** C5.  For every non-public error with status 500 the message field of the
    response body is "Internal Server Error": it differs from the error's
    own message whenever that is another value, and the body does not depend
    on the error's own message at all. *)
Theorem C5_internal_message_hidden (env : Env) (err : Err) (req : Request) (next : Next) (w : World) :
  truthy (isPublic err) = false ->
  status err = VNum 500 ->
  bodyField (run (errorHandler env err req next) w) "message"
    = Some (JStr "Internal Server Error") /\
  (message err <> VStr "Internal Server Error" ->
   bodyField (run (errorHandler env err req next) w) "message" <> toJSON (message err)) /\
  (forall raw : JsVal,
     sent (run (errorHandler env (withMessage err raw) req next) w)
     = sent (run (errorHandler env err req next) w)).
Proof.
  intros Hp Hs.
  assert (Hm : bodyField (run (errorHandler env err req next) w) "message"
               = Some (JStr "Internal Server Error")).
  { rewrite bodyField_message, Hp, Hs. reflexivity. }
  split; [exact Hm|]. split.
  - intros Hne Heq. rewrite Hm in Heq. apply Hne.
    destruct (message err); simpl in Heq; congruence.
  - intro raw. rewrite !errorHandler_sent. simpl. now rewrite Hp.
Qed.

Lemma C5_internal_message_hidden_witness :
  bodyField (run (errorHandler prodEnv internalError aReq noteNext) world0) "message"
    = Some (JStr "Internal Server Error").
Proof.
  apply (C5_internal_message_hidden prodEnv internalError aReq noteNext world0);
    reflexivity.
Defined.

(** C6.  When [env.nodeEnv] is ['dev'] and the error carries a non-empty
    stack, the response body has that stack in its stack field; in every
    other mode the stack field is the empty object, whatever the error.  The
    same holds from the failure that entered the pipeline, as long as the
    runtime gives a new [APIError] a non-empty stack. *)
Theorem C6_stack_only_in_dev (env : Env) (trace : JsVal) (err failure : Err)
    (req : Request) (next : Next) (w : World) :
  (nodeEnv env = "dev" ->
   forall s : string, stack err = VStr s -> s <> "" ->
     bodyField (run (errorHandler env err req next) w) "stack" = Some (JStr s)) /\
  (nodeEnv env <> "dev" ->
   bodyField (run (errorHandler env err req next) w) "stack" = Some (JObject [])) /\
  (nodeEnv env = "dev" ->
   forall t s : string, trace = VStr t -> t <> "" ->
     stack failure = VStr s -> s <> "" ->
     exists s' : string,
       s' <> "" /\
       bodyField (run (pipeline env trace req (Some failure)) w) "stack"
         = Some (JStr s')) /\
  (nodeEnv env <> "dev" ->
   bodyField (run (pipeline env trace req (Some failure)) w) "stack"
     = Some (JObject []) /\
   bodyField (run (pipeline env trace req None) w) "stack" = Some (JObject [])).
Proof.
  split.
  { intros Hd s Hs _. rewrite bodyField_stack, Hd, Hs. reflexivity. }
  split.
  { intro Hd. rewrite bodyField_stack.
    apply String.eqb_neq in Hd. now rewrite Hd. }
  split.
  { intros Hd t s Ht Hnt Hs Hns.
    destruct (cls failure) eqn:Hc.
    - exists t. split; [exact Hnt|].
      rewrite (pipeline_error env trace req failure _
                 (convertError_validation trace failure req Hc)).
      rewrite bodyField_stack, Hd. simpl. now rewrite Ht.
    - exists s. split; [exact Hns|].
      rewrite (pipeline_error env trace req failure _
                 (convertError_APIError trace failure req Hc)).
      rewrite bodyField_stack, Hd. simpl. now rewrite Hs.
    - exists t. split; [exact Hnt|].
      rewrite (pipeline_error env trace req failure _
                 (convertError_other trace failure req Hc)).
      rewrite bodyField_stack, Hd. simpl. now rewrite Ht. }
  intro Hd. apply String.eqb_neq in Hd.
  destruct (convertError_total trace failure req) as [e [Hf _]].
  rewrite (pipeline_error env trace req failure e Hf), pipeline_unmatched.
  rewrite !bodyField_stack, Hd. split; reflexivity.
Qed.

Lemma C6_stack_only_in_dev_witness :
  bodyField (run (errorHandler devEnv internalError aReq noteNext) world0) "stack"
    = Some (JStr "APIError: db password rejected") /\
  bodyField (run (errorHandler prodEnv internalError aReq noteNext) world0) "stack"
    = Some (JObject []) /\
  exists s' : string,
    s' <> "" /\
    bodyField (run (pipeline devEnv aTrace aReq (Some plainError)) world0) "stack"
      = Some (JStr s').
Proof.
  pose proof (C6_stack_only_in_dev devEnv aTrace internalError plainError
                aReq noteNext world0) as [Hdev [_ [Hpipe _]]].
  pose proof (C6_stack_only_in_dev prodEnv aTrace internalError plainError
                aReq noteNext world0) as [_ [Hprod _]].
  split; [apply Hdev; [reflexivity | reflexivity | discriminate]|].
  split; [apply Hprod; discriminate|].
  apply (Hpipe eq_refl "APIError: at express.js" "Error: connect ECONNREFUSED");
    [reflexivity | discriminate | reflexivity | discriminate].
Defined.

Lemma shownMessage_value (err : Err) (m : string) :
  shownMessage err m ->
  (if truthy (isPublic err) then message err
   else getProp httpStatus (ToString (status err))) = VStr m.
Proof.
  intros [[Hp Hm] | [Hp Hm]]; now rewrite Hp.
Qed.

(** C7 as stated fails: a non-public error whose status has no entry in the
    status table is answered with a body whose only field is stack. *)
Lemma C7_two_fields_counterexample :
  bodyFieldNames (run (errorHandler prodEnv oddStatus aReq noteNext) world0)
    = ["stack"] /\
  ~ (exists (m : string) (o : list (string * Json)),
       sent (run (errorHandler prodEnv oddStatus aReq noteNext) world0)
       = Some (JObject [("message", JStr m); ("stack", JObject o)])).
Proof.
  split; [reflexivity|].
  intros [m [o H]]. vm_compute in H. discriminate H.
Qed.

(** C9.  There is a non-public error with a numeric status that has no entry
    in the status table; for it the message the final handler computes is
    [undefined], and the body that is sent has no message field. *)
Theorem C9_status_without_text :
  exists (err : Err) (n : Z),
    status err = VNum n /\
    isPublic err = VBool false /\
    getProp httpStatus (ToString (status err)) = VUndefined /\
    forall (env : Env) (req : Request) (next : Next) (w : World),
      bodyField (run (errorHandler env err req next) w) "message" = None /\
      isString (bodyField (run (errorHandler env err req next) w) "message") = false /\
      ~ In "message" (bodyFieldNames (run (errorHandler env err req next) w)).
Proof.
  exists oddStatus, 299%Z.
  split; [reflexivity|]. split; [reflexivity|]. split; [reflexivity|].
  intros env req next w.
  rewrite bodyField_message. split; [reflexivity|]. split; [reflexivity|].
  unfold bodyFieldNames.
  rewrite errorHandler_sent, stringify_message_stack. simpl.
  destruct (nodeEnv env =? "dev"); simpl; intros [H | H];
    solve [discriminate H | exact H].
Qed.

(** C10.  A validation failure with no field-error group is forwarded as an
    [APIError] with the empty message and [isPublic] true, and the message
    field of the response body is the empty string. *)
Theorem C10_empty_validation_failure (env : Env) (trace : JsVal) (err : Err)
    (req : Request) (w : World) :
  cls err = ValidationError ->
  errors err = [] ->
  (exists e : Err,
     forwards (convertError trace err req) e /\
     cls e = APIError /\
     message e = VStr "" /\
     isPublic e = VBool true) /\
  bodyField (run (pipeline env trace req (Some err)) w) "message" = Some (JStr "").
Proof.
  intros Hc He.
  pose proof (convertError_validation trace err req Hc) as Hf.
  rewrite He in Hf. change (joinedMessages ". " " and " []) with "" in Hf.
  split.
  - eexists. split; [exact Hf|]. repeat split.
  - rewrite (pipeline_error env trace req err _ Hf), bodyField_message.
    reflexivity.
Qed.

Lemma C10_empty_validation_failure_witness :
  (exists e : Err,
     forwards (convertError aTrace noGroups aReq) e /\
     cls e = APIError /\
     message e = VStr "" /\
     isPublic e = VBool true) /\
  bodyField (run (pipeline prodEnv aTrace aReq (Some noGroups)) world0) "message"
    = Some (JStr "").
Proof.
  apply (C10_empty_validation_failure prodEnv aTrace noGroups aReq world0);
    reflexivity.
Defined.

(** ** Further properties of the handlers and of the pipeline *)

Lemma truthy_orDefault_false (p : JsVal) :
  truthy (orDefault p (VBool false)) = truthy p.
Proof. destruct p; reflexivity. Qed.

Lemma sepTail_app (sep : string) (a b : list string) :
  sepTail sep (a ++ b) = sepTail sep a ++ sepTail sep b.
Proof.
  induction a as [|x a IH]; simpl; [reflexivity|].
  now rewrite IH, !append_assoc.
Qed.

Lemma concat_app (sep : string) (a b : list string) :
  a <> [] -> b <> [] ->
  concat sep (a ++ b) = concat sep a ++ sep ++ concat sep b.
Proof.
  intros Ha Hb.
  destruct a as [|x a]; [congruence|]. destruct b as [|y b]; [congruence|].
  change ((x :: a) ++ y :: b)%list with (x :: (a ++ y :: b))%list.
  rewrite !concat_cons, sepTail_app. simpl sepTail.
  now rewrite !append_assoc.
Qed.

Lemma occursIn_concat (sep : string) (l : list string) (x : string) :
  In x l -> occursIn x (concat sep l).
Proof.
  induction l as [|a l IH]; intro Hin; [destruct Hin|].
  destruct Hin as [-> | Hin].
  - exists "", (sepTail sep l). now rewrite concat_cons.
  - destruct (IH Hin) as [pre [post E]].
    destruct l as [|b l]; [destruct Hin|].
    change (concat sep (a :: b :: l)) with (a ++ sep ++ concat sep (b :: l)).
    exists (a ++ sep ++ pre), post. rewrite E.
    now rewrite !append_assoc.
Qed.

Lemma occursIn_trans (a b c : string) :
  occursIn a b -> occursIn b c -> occursIn a c.
Proof.
  intros [p1 [q1 E1]] [p2 [q2 E2]].
  exists (p2 ++ p1), (q1 ++ q2). rewrite E2, E1.
  now rewrite !append_assoc.
Qed.

(** X1.  For every failure the conversion stage hands exactly one error to
    its continuation, in the world it was started in, and that error is an
    [APIError]. *)
Theorem convertError_forwards_one_APIError (trace : JsVal) (err : Err) (req : Request) :
  exists e : Err,
    cls e = APIError /\
    (forall (next : Next) (w : World),
       convertError trace err req next w = next (Some e) w) /\
    (forall e' : Err, forwards (convertError trace err req) e' -> e' = e).
Proof.
  destruct (convertError_total trace err req) as [e [Hf Hc]].
  exists e. split; [exact Hc|]. split.
  - intros next w. now rewrite Hf.
  - intros e' Hf'. exact (forwards_unique _ _ _ Hf' Hf).
Qed.

(** X3.  A failure that is not a validation failure and whose [isPublic] is
    truthy is answered with its own message, when that is a string. *)
Theorem public_failure_message_shown (env : Env) (trace : JsVal) (failure : Err)
    (req : Request) (w : World) (m : string) :
  cls failure <> ValidationError ->
  truthy (isPublic failure) = true ->
  message failure = VStr m ->
  bodyField (run (pipeline env trace req (Some failure)) w) "message"
    = Some (JStr m).
Proof.
  intros Hc Hp Hm. destruct (cls failure) eqn:E; [congruence| |].
  - rewrite (pipeline_error env trace req failure _
               (convertError_APIError trace failure req E)).
    now rewrite bodyField_message, Hp, Hm.
  - rewrite (pipeline_error env trace req failure _
               (convertError_other trace failure req E)).
    rewrite bodyField_message. simpl.
    now rewrite truthy_orDefault_false, Hp, Hm.
Qed.

Lemma public_failure_message_shown_witness :
  bodyField (run (pipeline prodEnv aTrace aReq (Some publicError)) world0) "message"
    = Some (JStr "email already registered").
Proof.
  apply (public_failure_message_shown prodEnv aTrace publicError aReq world0);
    [discriminate | reflexivity | reflexivity].
Defined.

Lemma validation_message_sent (env : Env) (trace : JsVal) (failure : Err)
    (req : Request) (w : World) :
  cls failure = ValidationError ->
  bodyField (run (pipeline env trace req (Some failure)) w) "message"
    = Some (JStr (joinedMessages ". " " and " (errors failure))).
Proof.
  intro Hc.
  rewrite (pipeline_error env trace req failure _
             (convertError_validation trace failure req Hc)).
  now rewrite bodyField_message.
Qed.

(** X4.  A validation failure is answered with its joined field messages,
    and with nothing else of it: two validation failures with the same
    groups and the same status get the same body, whatever their own
    message, [isPublic] flag and stack. *)
Theorem validation_failure_response (env : Env) (trace : JsVal) (failure other : Err)
    (req : Request) (w : World) :
  cls failure = ValidationError ->
  bodyField (run (pipeline env trace req (Some failure)) w) "message"
    = Some (JStr (joinedMessages ". " " and " (errors failure))) /\
  (cls other = ValidationError ->
   errors other = errors failure ->
   status other = status failure ->
   sent (run (pipeline env trace req (Some other)) w)
   = sent (run (pipeline env trace req (Some failure)) w)).
Proof.
  intro Hc.
  pose proof (convertError_validation trace failure req Hc) as Hf.
  split.
  - now apply validation_message_sent.
  - intros Hc' He Hs.
    pose proof (convertError_validation trace other req Hc') as Hf'.
    rewrite (pipeline_error env trace req failure _ Hf).
    rewrite (pipeline_error env trace req other _ Hf').
    now rewrite He, Hs.
Qed.

Lemma validation_failure_response_witness :
  bodyField (run (pipeline prodEnv aTrace aReq (Some twoGroups)) world0) "message"
    = Some (JStr (joinedMessages ". " " and " (errors twoGroups))).
Proof.
  apply (validation_failure_response prodEnv aTrace twoGroups twoGroups aReq world0).
  reflexivity.
Defined.

(** X7.  [join] on an empty array gives the empty string, on one element the
    element without separator, and on two non-empty arrays put end to end the
    two joined strings with one separator between them. *)
Theorem Array_join_append (a b : list string) (x sep : string) :
  Array_join [] sep = "" /\
  Array_join [x] sep = x /\
  (a <> [] -> b <> [] ->
   Array_join (a ++ b) sep = Array_join a sep ++ sep ++ Array_join b sep).
Proof.
  split; [reflexivity|]. split; [reflexivity|].
  intros Ha Hb. rewrite !Array_join_concat. now apply concat_app.
Qed.

Lemma Array_join_append_witness :
  Array_join (["a"; "b"] ++ ["c"]) ". " = Array_join ["a"; "b"] ". " ++ ". " ++ Array_join ["c"] ". ".
Proof.
  apply (Array_join_append ["a"; "b"] ["c"] "" ". "); discriminate.
Defined.

(** X8.  Every message of every group of a validation failure occurs in the
    message of the response. *)
Theorem every_field_message_occurs (env : Env) (trace : JsVal) (failure : Err)
    (req : Request) (w : World) (g : FieldError) (m : string) :
  cls failure = ValidationError ->
  In g (errors failure) ->
  In m (messages g) ->
  exists u : string,
    bodyField (run (pipeline env trace req (Some failure)) w) "message"
      = Some (JStr u) /\
    occursIn m u.
Proof.
  intros Hc Hg Hm.
  exists (joinedMessages ". " " and " (errors failure)). split.
  - now apply validation_message_sent.
  - apply occursIn_trans with (b := concat ". " (messages g)).
    + now apply occursIn_concat.
    + unfold joinedMessages. apply occursIn_concat.
      now apply (in_map (fun g => concat ". " (messages g))).
Qed.

Lemma every_field_message_occurs_witness :
  exists u : string,
    bodyField (run (pipeline prodEnv aTrace aReq (Some twoGroups)) world0) "message"
      = Some (JStr u) /\
    occursIn "b" u.
Proof.
  apply (every_field_message_occurs prodEnv aTrace twoGroups aReq world0
           {| messages := ["a"; "b"] |} "b");
    [reflexivity | left; reflexivity | right; left; reflexivity].
Defined.

(** ** The registered stack *)

Lemma eqb_prod_not_test (env : Env) :
  (nodeEnv env =? "prod") = true -> (nodeEnv env =? "test") = false.
Proof.
  intro H. apply String.eqb_eq in H. now rewrite H.
Qed.

(** X9.  In ['test'] mode no logging middleware is registered and the
    whitelists of express-winston are left as they were.  In every other
    mode the access log and then the request/response log are registered,
    ['body'] is appended to both whitelists, and the access log writes to
    the logger's stream exactly in ['prod'] mode. *)
Theorem logging_off_only_in_test (env : Env) (port trace : JsVal)
    (defaults : list (string * JsVal)) (rq rs : list string) :
  (nodeEnv env = "test" ->
   filter isLogging (map snd (layers (app env port trace defaults rq rs))) = [] /\
   requestWhitelist (app env port trace defaults rq rs) = rq /\
   responseWhitelist (app env port trace defaults rq rs) = rs) /\
  (nodeEnv env <> "test" ->
   exists out : option LogStream,
     filter isLogging (map snd (layers (app env port trace defaults rq rs)))
       = [Morgan "dev" out; WinstonLogger winstonOptions] /\
     (out = Some (stream logger) <-> nodeEnv env = "prod") /\
     requestWhitelist (app env port trace defaults rq rs) = (rq ++ ["body"])%list /\
     responseWhitelist (app env port trace defaults rq rs) = (rs ++ ["body"])%list).
Proof.
  split.
  - intro Ht. unfold app, configure. rewrite Ht. simpl. repeat split.
  - intro Ht. apply String.eqb_neq in Ht.
    unfold app, configure. rewrite Ht.
    destruct (nodeEnv env =? "prod") eqn:Hp.
    + apply String.eqb_eq in Hp.
      exists (Some (stream logger)). simpl.
      split; [reflexivity|]. split; [tauto|]. split; reflexivity.
    + apply String.eqb_neq in Hp.
      exists None. simpl.
      split; [reflexivity|]. split; [|split; reflexivity].
      split; [discriminate | contradiction].
Qed.

Lemma logging_off_only_in_test_witness :
  filter isLogging (map snd (layers (app testEnv (VNum 3000) aTrace [] ["url"] ["statusCode"]))) = [] /\
  requestWhitelist (app testEnv (VNum 3000) aTrace [] ["url"] ["statusCode"]) = ["url"] /\
  responseWhitelist (app testEnv (VNum 3000) aTrace [] ["url"] ["statusCode"]) = ["statusCode"].
Proof.
  apply (logging_off_only_in_test testEnv (VNum 3000) aTrace [] ["url"] ["statusCode"]).
  reflexivity.
Defined.

(** X10.  The mode only adds or removes logging middleware: the other
    layers, their mount paths and their order are the same in every mode. *)
Theorem mode_changes_logging_only (env : Env) (port trace : JsVal)
    (defaults : list (string * JsVal)) (rq rs : list string) :
  filter (fun l => negb (isLogging (snd l)))
         (layers (app env port trace defaults rq rs))
  = [ ("/", Compression); ("/", UrlEncoded true); ("/", BodyJson);
      ("/", MethodOverride); ("/", Cors); ("/", Crossdomain);
      ("/", XssFilter); ("/", NoSniff); ("/", Frameguard); ("/", IeNoOpen);
      ("/", HidePoweredBy); ("/api", Routes);
      ("/", Handler (UseError (convertError trace)));
      ("/", Handler (Use (notFound trace)));
      ("/", Handler (UseError (errorHandler env))) ].
Proof.
  unfold app, configure.
  destruct (nodeEnv env =? "prod") eqn:Hp.
  - rewrite (eqb_prod_not_test env Hp). reflexivity.
  - destruct (nodeEnv env =? "test"); reflexivity.
Qed.

(** X11.  In every mode the three handlers of the file are the last layers
    of the stack, right after the routes mounted at ['/api'] and after every
    third-party middleware; dispatching them is the pipeline. *)
Theorem handlers_registered_last (env : Env) (port trace : JsVal)
    (defaults : list (string * JsVal)) (rq rs : list string) :
  exists pre : list (string * Middleware),
    layers (app env port trace defaults rq rs)
    = (pre ++ [ ("/api", Routes);
                ("/", Handler (UseError (convertError trace)));
                ("/", Handler (Use (notFound trace)));
                ("/", Handler (UseError (errorHandler env))) ])%list /\
    forallb (fun l => negb (isHandler (snd l))) pre = true /\
    forall (req : Request) (pending : option Err),
      dispatch (ownLayers (layers (app env port trace defaults rq rs))) req pending
      = pipeline env trace req pending.
Proof.
  unfold app, configure.
  destruct (nodeEnv env =? "prod") eqn:Hp.
  - rewrite (eqb_prod_not_test env Hp).
    exists [ ("/", Compression); ("/", UrlEncoded true); ("/", BodyJson);
             ("/", MethodOverride); ("/", Morgan "dev" (Some (stream logger)));
             ("/", Cors); ("/", Crossdomain); ("/", XssFilter); ("/", NoSniff);
             ("/", Frameguard); ("/", IeNoOpen); ("/", HidePoweredBy);
             ("/", WinstonLogger winstonOptions) ].
    split; [reflexivity|]. split; reflexivity.
  - destruct (nodeEnv env =? "test").
    + exists [ ("/", Compression); ("/", UrlEncoded true); ("/", BodyJson);
               ("/", MethodOverride);
               ("/", Cors); ("/", Crossdomain); ("/", XssFilter); ("/", NoSniff);
               ("/", Frameguard); ("/", IeNoOpen); ("/", HidePoweredBy) ].
      split; [reflexivity|]. split; reflexivity.
    + exists [ ("/", Compression); ("/", UrlEncoded true); ("/", BodyJson);
               ("/", MethodOverride); ("/", Morgan "dev" None);
               ("/", Cors); ("/", Crossdomain); ("/", XssFilter); ("/", NoSniff);
               ("/", Frameguard); ("/", IeNoOpen); ("/", HidePoweredBy);
               ("/", WinstonLogger winstonOptions) ].
      split; [reflexivity|]. split; reflexivity.
Qed.

(** X12.  In a mode that is none of ['prod'], ['test'] and ['dev'] the
    access log to the console and the request/response log are registered,
    yet the final handler sends the empty object as stack and writes nothing
    to the console. *)
Theorem other_mode_logs_without_traces (env : Env) (port trace : JsVal)
    (defaults : list (string * JsVal)) (rq rs : list string)
    (err : Err) (req : Request) (next : Next) (w : World) :
  nodeEnv env <> "prod" ->
  nodeEnv env <> "test" ->
  nodeEnv env <> "dev" ->
  filter isLogging (map snd (layers (app env port trace defaults rq rs)))
    = [Morgan "dev" None; WinstonLogger winstonOptions] /\
  bodyField (run (errorHandler env err req next) w) "stack" = Some (JObject []) /\
  console (run (errorHandler env err req next) w) = console w.
Proof.
  intros Hp Ht Hd.
  apply String.eqb_neq in Hp. apply String.eqb_neq in Ht.
  apply String.eqb_neq in Hd.
  split; [unfold app, configure; rewrite Hp, Ht; reflexivity|].
  split; [now rewrite bodyField_stack, Hd|].
  unfold run, errorHandler, bind. simpl. now rewrite Hd.
Qed.

Lemma other_mode_logs_without_traces_witness :
  filter isLogging (map snd (layers (app stagingEnv (VNum 3000) aTrace [] [] [])))
    = [Morgan "dev" None; WinstonLogger winstonOptions] /\
  bodyField (run (errorHandler stagingEnv internalError aReq noteNext) world0) "stack"
    = Some (JObject []) /\
  console (run (errorHandler stagingEnv internalError aReq noteNext) world0)
    = console world0.
Proof.
  apply (other_mode_logs_without_traces stagingEnv (VNum 3000) aTrace [] [] []
           internalError aReq noteNext world0); discriminate.
Defined.

Lemma toJSON_None (v : JsVal) : toJSON v = None <-> v = VUndefined.
Proof.
  destruct v; simpl; split; intro H; try discriminate H; reflexivity.
Qed.

(** X14.  The body of the final handler lacks the message field exactly when
    the error is public and has no message, or is not public and has a
    status for which the status table has no entry. *)
Theorem message_field_absent_iff (env : Env) (err : Err) (req : Request)
    (next : Next) (w : World) :
  bodyField (run (errorHandler env err req next) w) "message" = None <->
  (truthy (isPublic err) = true /\ message err = VUndefined) \/
  (truthy (isPublic err) = false /\
   getProp httpStatus (ToString (status err)) = VUndefined).
Proof.
  rewrite bodyField_message, toJSON_None.
  destruct (truthy (isPublic err)); split.
  - intro H. left. now split.
  - intros [[_ H] | [H _]]; [exact H | discriminate H].
  - intro H. right. now split.
  - intros [[H _] | [_ H]]; [discriminate H | exact H].
Qed.

Lemma message_field_absent_iff_witness :
  bodyField (run (errorHandler prodEnv oddStatus aReq noteNext) world0) "message" = None.
Proof.
  apply (proj2 (message_field_absent_iff prodEnv oddStatus aReq noteNext world0)).
  right. split; reflexivity.
Defined.

(** ** The response on the wire *)

Lemma ToInt32_small (n : Z) :
  (-2147483648 <= n < 2147483648)%Z -> Wire.ToInt32 n = n.
Proof.
  intro H. unfold Wire.ToInt32. rewrite Z.mod_small; lia.
Qed.

(** An error status is never fresh. *)
Lemma fresh_error_status (req : Wire.Request) (n : Z) :
  (400 <= n)%Z -> Wire.fresh req (VNum n) = false.
Proof.
  intro H. unfold Wire.fresh.
  replace (((200 <=? n)%Z && (n <? 300)%Z || (n =? 304)%Z)%bool) with false.
  - now rewrite Bool.andb_false_r.
  - symmetry. apply Bool.orb_false_iff. split.
    + apply Bool.andb_false_iff. right. apply Z.ltb_ge. lia.
    + apply Z.eqb_neq. lia.
Qed.

(** With an error status and nothing sent yet, [res.json] writes that status
    and, unless the request is a HEAD request, the JSON body. *)
Lemma res_json_error_status (req : Wire.Request) (props : list (string * JsVal))
    (w : Wire.World) (n : Z) :
  Wire.statusCode w = VNum n ->
  (400 <= n <= 599)%Z ->
  Wire.written w = None ->
  Wire.res_json req props w
  = (Wire.Ok tt,
     {| Wire.statusCode := VNum n;
        Wire.written :=
          Some (n, if Wire.method req =? "HEAD" then None
                   else Some (JSON_stringify props));
        Wire.console := Wire.console w |}).
Proof.
  intros Hs Hn Hw. unfold Wire.res_json.
  rewrite Hw, Hs, fresh_error_status by lia.
  cbn [Wire.statusNumber]. rewrite ToInt32_small by lia.
  replace ((n <? 100)%Z || (999 <? n)%Z)%bool with false.
  2:{ symmetry. apply Bool.orb_false_iff. split; apply Z.ltb_ge; lia. }
  replace (n =? 205)%Z with false by (symmetry; apply Z.eqb_neq; lia).
  replace (Wire.bodyless n) with false; [reflexivity|].
  symmetry. unfold Wire.bodyless.
  apply Bool.orb_false_iff. split; [apply Bool.orb_false_iff; split|].
  - apply Bool.andb_false_iff. right. apply Z.leb_gt. lia.
  - apply Z.eqb_neq. lia.
  - apply Z.eqb_neq. lia.
Qed.

Lemma Wire_errorHandler_error_status (env : Env) (err : Err) (req : Wire.Request)
    (next : Wire.Next) (w : Wire.World) (n : Z) :
  status err = VNum n ->
  (400 <= n <= 599)%Z ->
  Wire.written w = None ->
  Wire.errorHandler env err req next w
  = (Wire.Ok tt,
     {| Wire.statusCode := VNum n;
        Wire.written :=
          Some (n, if Wire.method req =? "HEAD" then None
                   else Some (JSON_stringify
                     [ ("message", if truthy (isPublic err) then message err
                                   else getProp httpStatus (ToString (status err)));
                       ("stack", if nodeEnv env =? "dev" then stack err else VObj []) ]));
        Wire.console :=
          if nodeEnv env =? "dev" then (Wire.console w ++ [err])%list
          else Wire.console w |}).
Proof.
  intros Hs Hn Hw. unfold Wire.errorHandler, Wire.bind, Wire.res_status.
  rewrite (res_json_error_status req _ _ n) by (try exact Hn; simpl; assumption).
  destruct (nodeEnv env =? "dev"); reflexivity.
Qed.

(** The conversion stage forwards the same error on the wire as above. *)
Lemma Wire_convertError_total (trace : JsVal) (err : Err) (req : Wire.Request) :
  exists e : Err,
    cls e = APIError /\
    forwards (convertError trace err aReq) e /\
    forall next : Wire.Next, Wire.convertError trace err req next = next (Some e).
Proof.
  destruct (cls err) eqn:Hc.
  - eexists. split; [|split].
    2:{ now apply convertError_validation. }
    + reflexivity.
    + intro next. unfold Wire.convertError, instanceof. rewrite Hc. simpl.
      unfold joinedMessages. now rewrite Array_join_concat, map_join_concat.
  - exists err. split; [exact Hc|]. split; [now apply convertError_APIError|].
    intro next. unfold Wire.convertError, instanceof. now rewrite Hc.
  - eexists. split; [|split].
    2:{ now apply convertError_other. }
    + reflexivity.
    + intro next. unfold Wire.convertError, instanceof. now rewrite Hc.
Qed.

(** When the final handler answers, the pipeline ends there. *)
Lemma Wire_pipeline_error (env : Env) (trace : JsVal) (thrown : Wire.Exn -> Err)
    (req : Wire.Request) (failure e : Err) (w w' : Wire.World) :
  (forall next : Wire.Next, Wire.convertError trace failure req next = next (Some e)) ->
  Wire.errorHandler env e req (Wire.dispatch thrown [] req) w = (Wire.Ok tt, w') ->
  Wire.pipeline env trace thrown req (Some failure) w = (Wire.Ok tt, w').
Proof.
  intros Hf Hh. unfold Wire.pipeline, Wire.errorLayers. cbn [Wire.dispatch].
  unfold Wire.try_catch at 1. rewrite Hf.
  unfold Wire.try_catch. cbn [Wire.dispatch] in Hh. now rewrite Hh.
Qed.

Lemma Wire_pipeline_unmatched (env : Env) (trace : JsVal) (thrown : Wire.Exn -> Err)
    (req : Wire.Request) (w w' : Wire.World) :
  Wire.errorHandler env
    (new_APIError trace (VStr "API not found!") (VNum 404) VUndefined)
    req (Wire.dispatch thrown [] req) w = (Wire.Ok tt, w') ->
  Wire.pipeline env trace thrown req None w = (Wire.Ok tt, w').
Proof.
  intro Hh. unfold Wire.pipeline, Wire.errorLayers. cbn [Wire.dispatch].
  unfold Wire.try_catch at 1. unfold Wire.notFound.
  change (getProp httpStatus "NOT_FOUND") with (VNum 404).
  unfold Wire.try_catch. cbn [Wire.dispatch] in Hh. now rewrite Hh.
Qed.

(** The error the final handler receives for a failure with status [n], or
    without status, and the answer it then gives. *)
Lemma Wire_pipeline_answer (env : Env) (trace : JsVal) (thrown : Wire.Exn -> Err)
    (req : Wire.Request) (failure : Err) (w : Wire.World) (n : Z) :
  (400 <= n <= 599)%Z ->
  Wire.written w = None ->
  status failure = VNum n \/
  (cls failure <> APIError /\ status failure = VUndefined /\ n = 500%Z) ->
  exists e : Err,
    cls e = APIError /\
    status e = VNum n /\
    Wire.pipeline env trace thrown req (Some failure) w
    = Wire.errorHandler env e req (Wire.dispatch thrown [] req) w.
Proof.
  intros Hn Hw Hs.
  destruct (Wire_convertError_total trace failure req) as [e [Hc [Hold Hf]]].
  assert (He : status e = VNum n).
  { destruct (cls failure) eqn:Hcf.
    - rewrite (forwards_unique _ _ _ Hold (convertError_validation trace failure aReq Hcf)).
      simpl. destruct Hs as [-> | [_ [-> ->]]]; reflexivity.
    - rewrite (forwards_unique _ _ _ Hold (convertError_APIError trace failure aReq Hcf)).
      destruct Hs as [Hs | [Hne _]]; [exact Hs | congruence].
    - rewrite (forwards_unique _ _ _ Hold (convertError_other trace failure aReq Hcf)).
      simpl. destruct Hs as [-> | [_ [-> ->]]]; reflexivity. }
  exists e. split; [exact Hc|]. split; [exact He|].
  rewrite (Wire_errorHandler_error_status env e req _ w n He Hn Hw).
  apply (Wire_pipeline_error env trace thrown req failure e w _ Hf).
  apply (Wire_errorHandler_error_status env e req _ w n He Hn Hw).
Qed.

Lemma fieldNames_message_stack (m s : JsVal) :
  incl (fieldNames (JSON_stringify [("message", m); ("stack", s)])) ["message"; "stack"] /\
  (s <> VUndefined ->
   In "stack" (fieldNames (JSON_stringify [("message", m); ("stack", s)]))).
Proof.
  rewrite stringify_message_stack. split.
  - destruct (toJSON m), (toJSON s); intros x Hx; simpl in Hx; simpl; tauto.
  - intro Hs. destruct (toJSON s) eqn:E.
    + destruct (toJSON m); simpl; tauto.
    + apply toJSON_None in E. contradiction.
Qed.

(** C7, as the code has it.  For an error whose status is an HTTP error
    status (an integer from 400 to 599), with no response sent before and a
    request that is not a HEAD request, the status code of the response is
    the status of the error the final handler receives: the failure's own
    status, 500 when a converted failure has none, 404 when no route matched;
    and the body is a JSON object.  When the message shown is a string, that
    object has exactly the two fields message and stack outside ['dev'] mode,
    the stack being the empty object, and in ['dev'] mode when the stack of
    the error is a string, the stack being that string. *)
Theorem C7_response_shape (env : Env) (trace : JsVal) (thrown : Wire.Exn -> Err)
    (err failure : Err) (req : Wire.Request) (next : Wire.Next)
    (w : Wire.World) (n : Z) :
  (400 <= n <= 599)%Z ->
  Wire.written w = None ->
  Wire.method req <> "HEAD" ->
  (status err = VNum n ->
   exists body : Json,
     Wire.written (snd (Wire.errorHandler env err req next w)) = Some (n, Some body) /\
     (exists fields : list (string * Json), body = JObject fields) /\
     (forall m : string, shownMessage err m -> nodeEnv env <> "dev" ->
        body = JObject [("message", JStr m); ("stack", JObject [])]) /\
     (forall m s : string, shownMessage err m -> nodeEnv env = "dev" ->
        stack err = VStr s ->
        body = JObject [("message", JStr m); ("stack", JStr s)])) /\
  (status failure = VNum n ->
   exists body : Json,
     Wire.written (snd (Wire.pipeline env trace thrown req (Some failure) w))
     = Some (n, Some body)) /\
  (cls failure <> APIError -> status failure = VUndefined ->
   exists body : Json,
     Wire.written (snd (Wire.pipeline env trace thrown req (Some failure) w))
     = Some (500%Z, Some body)) /\
  (exists body : Json,
     Wire.written (snd (Wire.pipeline env trace thrown req None w))
     = Some (404%Z, Some body)).
Proof.
  intros Hn Hw Hhead. apply String.eqb_neq in Hhead.
  split.
  { intro Hs.
    rewrite (Wire_errorHandler_error_status env err req next w n Hs Hn Hw).
    cbn [snd Wire.written]. rewrite Hhead.
    eexists. split; [reflexivity|].
    split; [rewrite stringify_message_stack; eexists; reflexivity|]. split.
    - intros m Hm Hd. apply String.eqb_neq in Hd.
      rewrite stringify_message_stack.
      now rewrite (shownMessage_value err m Hm), Hd.
    - intros m s Hm Hd Hst.
      rewrite stringify_message_stack.
      now rewrite (shownMessage_value err m Hm), Hd, Hst. }
  split.
  { intro Hs.
    destruct (Wire_pipeline_answer env trace thrown req failure w n Hn Hw
                (or_introl Hs)) as [e [_ [He ->]]].
    rewrite (Wire_errorHandler_error_status env e req _ w n He Hn Hw).
    cbn [snd Wire.written]. rewrite Hhead. eexists. reflexivity. }
  split.
  { intros Hc Hs.
    assert (H500 : (400 <= 500 <= 599)%Z) by lia.
    destruct (Wire_pipeline_answer env trace thrown req failure w 500 H500 Hw
                (or_intror (conj Hc (conj Hs eq_refl)))) as [e [_ [He ->]]].
    rewrite (Wire_errorHandler_error_status env e req _ w 500 He H500 Hw).
    cbn [snd Wire.written]. rewrite Hhead. eexists. reflexivity. }
  assert (H404 : (400 <= 404 <= 599)%Z) by lia.
  pose proof (Wire_errorHandler_error_status env
                (new_APIError trace (VStr "API not found!") (VNum 404) VUndefined)
                req (Wire.dispatch thrown [] req) w 404 eq_refl H404 Hw) as Hh.
  rewrite (Wire_pipeline_unmatched env trace thrown req w _ Hh).
  cbn [snd Wire.written]. rewrite Hhead. eexists. reflexivity.
Qed.

Lemma C7_response_shape_witness :
  (exists body : Json,
     Wire.written (snd (Wire.errorHandler prodEnv internalError wireReq
                          (fun _ => Wire.ret tt) wire0))
     = Some (500%Z, Some body) /\
     body = JObject [("message", JStr "Internal Server Error"); ("stack", JObject [])]) /\
  (exists body : Json,
     Wire.written (snd (Wire.pipeline prodEnv aTrace thrownSample wireReq
                          (Some plainError) wire0))
     = Some (500%Z, Some body)).
Proof.
  assert (H500 : (400 <= 500 <= 599)%Z) by lia.
  assert (Hhead : Wire.method wireReq <> "HEAD") by discriminate.
  pose proof (C7_response_shape prodEnv aTrace thrownSample internalError plainError
                wireReq (fun _ => Wire.ret tt) wire0 500 H500 eq_refl Hhead)
    as [Hbody [_ [Hdefault _]]].
  split.
  - destruct (Hbody eq_refl) as [body [Hw [_ [Hprod _]]]].
    exists body. split; [exact Hw|].
    apply (Hprod "Internal Server Error"); [right; split; reflexivity | discriminate].
  - apply Hdefault; [discriminate | reflexivity].
Defined.

(** C8, as the code has it.  The final handler never calls its continuation:
    it does the same whatever continuation it is given.  For an error whose
    status is an HTTP error status (an integer from 400 to 599), when no
    response was sent before, it writes the response and returns, and no
    layer registered after it is reached. *)
Theorem C8_errorHandler_terminal (env : Env) (thrown : Wire.Exn -> Err) (err : Err)
    (req : Wire.Request) (w : Wire.World) (n : Z) (more : list Wire.Layer) :
  (forall next next' : Wire.Next,
     Wire.errorHandler env err req next = Wire.errorHandler env err req next') /\
  (status err = VNum n ->
   (400 <= n <= 599)%Z ->
   Wire.written w = None ->
   (forall next : Wire.Next,
      fst (Wire.errorHandler env err req next w) = Wire.Ok tt /\
      exists body : option Json,
        Wire.written (snd (Wire.errorHandler env err req next w)) = Some (n, body)) /\
   Wire.dispatch thrown (Wire.UseError (Wire.errorHandler env) :: more) req (Some err) w
   = Wire.dispatch thrown [Wire.UseError (Wire.errorHandler env)] req (Some err) w).
Proof.
  split; [reflexivity|].
  intros Hs Hn Hw. split.
  - intro next.
    rewrite (Wire_errorHandler_error_status env err req next w n Hs Hn Hw).
    split; [reflexivity|]. eexists. reflexivity.
  - cbn [Wire.dispatch]. unfold Wire.try_catch.
    rewrite (Wire_errorHandler_error_status env err req _ w n Hs Hn Hw).
    rewrite (Wire_errorHandler_error_status env err req _ w n Hs Hn Hw).
    reflexivity.
Qed.

Lemma C8_errorHandler_terminal_witness :
  fst (Wire.errorHandler devEnv internalError wireReq (fun _ => Wire.ret tt) wire0)
    = Wire.Ok tt /\
  Wire.dispatch thrownSample [Wire.UseError (Wire.errorHandler devEnv); noteLayer]
    wireReq (Some internalError) wire0
  = Wire.dispatch thrownSample [Wire.UseError (Wire.errorHandler devEnv)]
      wireReq (Some internalError) wire0.
Proof.
  assert (H500 : (400 <= 500 <= 599)%Z) by lia.
  pose proof (proj2 (C8_errorHandler_terminal devEnv thrownSample internalError
                       wireReq wire0 500 [noteLayer]) eq_refl H500 eq_refl)
    as [Hret Hmore].
  split; [exact (proj1 (Hret (fun _ => Wire.ret tt))) | exact Hmore].
Defined.

(** C8 as stated fails: for an error with status 0 [res.json] throws, the
    final handler writes no response and logs nothing, and a layer
    registered after it is reached with the exception. *)
Lemma C8_invalid_status_counterexample :
  fst (Wire.errorHandler devEnv zeroStatus wireReq (fun _ => Wire.ret tt) wire0)
    = Wire.Throw Wire.ERR_HTTP_INVALID_STATUS_CODE /\
  Wire.written (snd (Wire.errorHandler devEnv zeroStatus wireReq
                       (fun _ => Wire.ret tt) wire0)) = None /\
  Wire.console (snd (Wire.errorHandler devEnv zeroStatus wireReq
                       (fun _ => Wire.ret tt) wire0)) = [] /\
  Wire.console
    (snd (Wire.dispatch thrownSample
            [Wire.UseError (Wire.errorHandler devEnv); noteLayer]
            wireReq (Some zeroStatus) wire0))
  = [thrownSample Wire.ERR_HTTP_INVALID_STATUS_CODE].
Proof.
  repeat split.
Qed.

(** X2.  With no response sent before and a request that is not a HEAD
    request, the pipeline answers an unmatched request with 404 and a
    failure with its error status, or with 500 when a converted failure has
    none: it returns normally, a JSON body is written with that status, the
    top-level fields of the body are among message and stack, and outside
    ['dev'] mode the stack field is there. *)
Theorem pipeline_answers_error_status (env : Env) (trace : JsVal)
    (thrown : Wire.Exn -> Err) (req : Wire.Request) (pending : option Err)
    (w : Wire.World) (n : Z) :
  (400 <= n <= 599)%Z ->
  Wire.written w = None ->
  Wire.method req <> "HEAD" ->
  (pending = None /\ n = 404%Z) \/
  (exists failure : Err,
     pending = Some failure /\
     (status failure = VNum n \/
      (cls failure <> APIError /\ status failure = VUndefined /\ n = 500%Z))) ->
  exists (body : Json) (w' : Wire.World),
    Wire.pipeline env trace thrown req pending w = (Wire.Ok tt, w') /\
    Wire.written w' = Some (n, Some body) /\
    incl (fieldNames body) ["message"; "stack"] /\
    (nodeEnv env <> "dev" -> In "stack" (fieldNames body)).
Proof.
  intros Hn Hw Hhead Hp. apply String.eqb_neq in Hhead.
  assert (Hfinal : forall e : Err,
            status e = VNum n ->
            exists (body : Json) (w' : Wire.World),
              Wire.errorHandler env e req (Wire.dispatch thrown [] req) w
                = (Wire.Ok tt, w') /\
              Wire.written w' = Some (n, Some body) /\
              incl (fieldNames body) ["message"; "stack"] /\
              (nodeEnv env <> "dev" -> In "stack" (fieldNames body))).
  { intros e He.
    rewrite (Wire_errorHandler_error_status env e req _ w n He Hn Hw).
    rewrite Hhead.
    eexists. eexists. split; [reflexivity|]. split; [reflexivity|].
    split; [apply fieldNames_message_stack|].
    intro Hd. apply String.eqb_neq in Hd. rewrite Hd.
    apply fieldNames_message_stack. discriminate. }
  destruct Hp as [[-> ->] | [failure [-> Hs]]].
  - destruct (Hfinal (new_APIError trace (VStr "API not found!") (VNum 404) VUndefined)
                eq_refl) as [body [w' [Hh Hrest]]].
    exists body, w'. split; [|exact Hrest].
    now apply Wire_pipeline_unmatched.
  - destruct (Wire_pipeline_answer env trace thrown req failure w n Hn Hw Hs)
      as [e [_ [He Hpipe]]].
    destruct (Hfinal e He) as [body [w' [Hh Hrest]]].
    exists body, w'. split; [|exact Hrest].
    now rewrite Hpipe.
Qed.

Lemma pipeline_answers_error_status_witness :
  exists (body : Json) (w' : Wire.World),
    Wire.pipeline prodEnv aTrace thrownSample wireReq None wire0 = (Wire.Ok tt, w') /\
    Wire.written w' = Some (404%Z, Some body) /\
    incl (fieldNames body) ["message"; "stack"] /\
    (nodeEnv prodEnv <> "dev" -> In "stack" (fieldNames body)).
Proof.
  apply (pipeline_answers_error_status prodEnv aTrace thrownSample wireReq None wire0 404);
    [lia | reflexivity | discriminate | left; split; reflexivity].
Defined.

(** X5.  For a failure that is not a validation failure and whose
    [isPublic] is falsy, the message field of the body never depends on the
    failure's message, in any mode and whatever stack the runtime gives the
    wrapper; outside ['dev'] mode the whole body does not depend on it. *)
Theorem nonpublic_message_never_sent (env : Env) (trace trace' : JsVal)
    (failure : Err) (req : Request) (w : World) (raw : JsVal) :
  cls failure <> ValidationError ->
  truthy (isPublic failure) = false ->
  bodyField (run (pipeline env trace req (Some (withMessage failure raw))) w) "message"
  = bodyField (run (pipeline env trace' req (Some failure)) w) "message" /\
  (nodeEnv env <> "dev" ->
   sent (run (pipeline env trace req (Some (withMessage failure raw))) w)
   = sent (run (pipeline env trace' req (Some failure)) w)).
Proof.
  intros Hc Hp. destruct (cls failure) eqn:E; [congruence| |].
  - rewrite (pipeline_error env trace' req failure _
               (convertError_APIError trace' failure req E)).
    rewrite (pipeline_error env trace req (withMessage failure raw) _
               (convertError_APIError trace (withMessage failure raw) req E)).
    split.
    + rewrite !bodyField_message. simpl. now rewrite Hp.
    + intro Hd. apply String.eqb_neq in Hd.
      rewrite !errorHandler_sent. simpl. now rewrite Hp, Hd.
  - rewrite (pipeline_error env trace' req failure _
               (convertError_other trace' failure req E)).
    rewrite (pipeline_error env trace req (withMessage failure raw) _
               (convertError_other trace (withMessage failure raw) req E)).
    split.
    + rewrite !bodyField_message. simpl.
      now rewrite truthy_orDefault_false, Hp.
    + intro Hd. apply String.eqb_neq in Hd.
      rewrite !errorHandler_sent. simpl.
      now rewrite truthy_orDefault_false, Hp, Hd.
Qed.

Lemma nonpublic_message_never_sent_witness :
  sent (run (pipeline prodEnv aTrace aReq
               (Some (withMessage plainError (VStr "other secret")))) world0)
  = sent (run (pipeline prodEnv (VStr "APIError: connect ECONNREFUSED") aReq
                 (Some plainError)) world0).
Proof.
  apply (nonpublic_message_never_sent prodEnv aTrace
           (VStr "APIError: connect ECONNREFUSED") plainError aReq world0);
    [discriminate | reflexivity | discriminate].
Defined.



(** X13.  A response that was already sent is kept: the final handler then
    throws from [res.json], writes and logs nothing, and only the
    [statusCode] property of the response object changes.  When nothing was
    sent, what it does is the same whatever status an earlier stage had
    set. *)
Theorem sent_response_is_kept (env : Env) (err : Err) (req : Wire.Request)
    (next : Wire.Next) (w w' : Wire.World) :
  (forall r : Z * option Json,
     Wire.written w = Some r ->
     Wire.errorHandler env err req next w
     = (Wire.Throw Wire.ERR_HTTP_HEADERS_SENT,
        {| Wire.statusCode := status err;
           Wire.written := Some r;
           Wire.console := Wire.console w |})) /\
  (Wire.written w = None ->
   Wire.written w' = None ->
   Wire.console w' = Wire.console w ->
   Wire.errorHandler env err req next w' = Wire.errorHandler env err req next w).
Proof.
  split.
  - intros r Hw. unfold Wire.errorHandler, Wire.bind, Wire.res_status, Wire.res_json.
    cbn [Wire.written Wire.statusCode Wire.console]. now rewrite Hw.
  - intros Hw Hw' Hc. unfold Wire.errorHandler, Wire.bind, Wire.res_status.
    now rewrite Hw, Hw', Hc.
Qed.

Lemma sent_response_is_kept_witness :
  Wire.errorHandler devEnv internalError wireReq (fun _ => Wire.ret tt) wireSent
  = (Wire.Throw Wire.ERR_HTTP_HEADERS_SENT,
     {| Wire.statusCode := VNum 500;
        Wire.written := Some (201%Z, Some (JObject [("id", JNum 7)]));
        Wire.console := [] |}).
Proof.
  apply (proj1 (sent_response_is_kept devEnv internalError wireReq
                  (fun _ => Wire.ret tt) wireSent wireSent)).
  reflexivity.
Defined.
